(** * StereoRendering sample (Falcor): the class declaration and its object state

    The repository consists of one header,
    [Samples/Core/StereoRendering/StereoRendering.h].  It declares the class
    [StereoRendering : public Renderer]; no member function is defined there.

    The development has three layers.

    - [Cpp]: the vocabulary of the header (access specifiers, the types it
      spells, default member initialisers, the kinds of line it contains) and
      a scanner that turns the lines of a header into class declarations,
      tracking the access specifier in force the way C++ does.
    - [Header]: the 82 lines of [StereoRendering.h], one constructor per
      line, and the class declaration the scanner extracts from them.
    - [Sample]: the object state of a [StereoRendering] instance as a record,
      its default construction from the default member initialisers of the
      header, and member writes.

    Member-function bodies are not part of the repository; where a statement
    needs them they are modelled from the specification and marked so. *)

From Stdlib Require Import List String Bool Arith Lia.
Import ListNotations.
Local Open Scope string_scope.
Local Open Scope list_scope.

(* ===================================================================== *)
(** ** The C++ vocabulary used by the header *)
(* ===================================================================== *)

Module Cpp.

Inductive access : Type := Public | Protected | Private.

Definition access_eqb (a b : access) : bool :=
  match a, b with
  | Public, Public | Protected, Protected | Private, Private => true
  | _, _ => false
  end.

(** Types exactly as the header spells them. *)
Inductive ctype : Type :=
| TVoid
| TBool
| TUint32                              (* uint32_t *)
| TName (n : string)                   (* SampleCallbacks, RenderMode, ... *)
| TScoped (scope n : string)           (* Scene::SharedPtr, std::string, ... *)
| TPtr (t : ctype)                     (* T* *)
| TConstRef (t : ctype).               (* const T& *)

Fixpoint ctype_eqb (a b : ctype) : bool :=
  match a, b with
  | TVoid, TVoid | TBool, TBool | TUint32, TUint32 => true
  | TName x, TName y => String.eqb x y
  | TScoped s x, TScoped t y => String.eqb s t && String.eqb x y
  | TPtr x, TPtr y => ctype_eqb x y
  | TConstRef x, TConstRef y => ctype_eqb x y
  | _, _ => false
  end.

(** Default member initialisers that occur: [= nullptr], [= false],
    [= true], [= RenderMode::Mono]. *)
Inductive init_expr : Type :=
| INullptr
| IBool (b : bool)
| IEnumerator (enum name : string).

(** A member-function declarator.  [has_body] is [false] for a declaration
    closed by [;] and [true] for one followed by a function body. *)
Record method_decl : Type := MkMethod {
  ret : ctype;
  params : list (ctype * string);
  is_override : bool;
  has_body : bool
}.

(** One source line of a header. *)
Inductive line : Type :=
| LComment                                   (* a line of a block comment *)
| LBlank
| LPragmaOnce
| LInclude (file : string)
| LUsingNamespace (ns : string)
| LClassHead (name : string) (base_access : access) (base : string)
| LOpenBrace                                 (* { *)
| LCloseBrace                                (* }; *)
| LAccess (a : access)                       (* public: / private: *)
| LMethod (name : string) (m : method_decl)
| LField (ty : ctype) (name : string) (init : option init_expr)
| LStaticConst (ty : ctype) (name : string)  (* static const T name; *)
| LEnumClassHead (name : string)             (* enum class E *)
| LEnumerator (name : string).

Inductive member_kind : Type :=
| KMethod (m : method_decl)
| KField (ty : ctype) (init : option init_expr)
| KStaticConst (ty : ctype)
| KEnum (enumerators : list string).

Record member : Type := MkMember {
  m_line : nat;
  m_access : access;
  m_name : string;
  m_kind : member_kind
}.

Record class_decl : Type := MkClass {
  c_name : string;
  c_base_access : access;
  c_base : string;
  c_members : list member
}.

(** *** Scanning a header

    The scanner walks the lines once.  Inside a class it keeps the access
    specifier in force: [private] when the body of a [class] opens, then
    whatever the last [public:] / [protected:] / [private:] label said.  Every
    member is recorded with the specifier in force at its line. *)

Inductive ctx : Type :=
| AtTop
| ClassHeadSeen (name : string) (ba : access) (base : string)
| InClass (name : string) (ba : access) (base : string)
          (cur : access) (rev_members : list member)
| EnumHeadSeen (name : string) (ba : access) (base : string)
               (cur : access) (rev_members : list member)
               (eline : nat) (ename : string)
| InEnum (name : string) (ba : access) (base : string)
         (cur : access) (rev_members : list member)
         (eline : nat) (ename : string) (rev_enumerators : list string).

Definition step (n : nat) (l : line) (st : ctx * list class_decl)
  : option (ctx * list class_decl) :=
  let (c, done) := st in
  match c, l with
  (* anywhere: comments and blank lines *)
  | _, LComment | _, LBlank => Some st
  (* namespace scope *)
  | AtTop, LPragmaOnce | AtTop, LInclude _ | AtTop, LUsingNamespace _ => Some st
  | AtTop, LClassHead name ba base => Some (ClassHeadSeen name ba base, done)
  | ClassHeadSeen name ba base, LOpenBrace =>
      Some (InClass name ba base Private [], done)
  (* class scope *)
  | InClass name ba base _ ms, LAccess a => Some (InClass name ba base a ms, done)
  | InClass name ba base cur ms, LMethod f m =>
      Some (InClass name ba base cur (MkMember n cur f (KMethod m) :: ms), done)
  | InClass name ba base cur ms, LField ty f i =>
      Some (InClass name ba base cur (MkMember n cur f (KField ty i) :: ms), done)
  | InClass name ba base cur ms, LStaticConst ty f =>
      Some (InClass name ba base cur (MkMember n cur f (KStaticConst ty) :: ms), done)
  | InClass name ba base cur ms, LEnumClassHead e =>
      Some (EnumHeadSeen name ba base cur ms n e, done)
  | InClass name ba base _ ms, LCloseBrace =>
      Some (AtTop, done ++ [MkClass name ba base (rev ms)])
  (* enum scope *)
  | EnumHeadSeen name ba base cur ms el e, LOpenBrace =>
      Some (InEnum name ba base cur ms el e [], done)
  | InEnum name ba base cur ms el e es, LEnumerator x =>
      Some (InEnum name ba base cur ms el e (x :: es), done)
  | InEnum name ba base cur ms el e es, LCloseBrace =>
      Some (InClass name ba base cur (MkMember el cur e (KEnum (rev es)) :: ms), done)
  | _, _ => None
  end.

Fixpoint scan (n : nat) (ls : list line) (st : ctx * list class_decl)
  : option (ctx * list class_decl) :=
  match ls with
  | [] => Some st
  | l :: ls' =>
      match step n l st with
      | Some st' => scan (S n) ls' st'
      | None => None
      end
  end.

(** Lines are numbered from 1; the header must end at namespace scope. *)
Definition parse (ls : list line) : option (list class_decl) :=
  match scan 1 ls (AtTop, []) with
  | Some (AtTop, cs) => Some cs
  | _ => None
  end.

(** *** Queries on a class declaration *)

Definition is_method (m : member) : bool :=
  match m_kind m with KMethod _ => true | _ => false end.

Definition is_field (m : member) : bool :=
  match m_kind m with KField _ _ => true | _ => false end.

Definition is_public (m : member) : bool := access_eqb (m_access m) Public.

Definition methods (c : class_decl) : list member := filter is_method (c_members c).

Definition fields (c : class_decl) : list member := filter is_field (c_members c).

Definition public_members (c : class_decl) : list member :=
  filter is_public (c_members c).

Definition named (n : string) (c : class_decl) : list member :=
  filter (fun m => String.eqb (m_name m) n) (c_members c).

Definition field_has_type (t : ctype) (m : member) : bool :=
  match m_kind m with KField ty _ => ctype_eqb ty t | _ => false end.

Definition fields_of_type (t : ctype) (c : class_decl) : list string :=
  map m_name (filter (field_has_type t) (c_members c)).

Definition field_type (n : string) (c : class_decl) : option ctype :=
  match filter is_field (named n c) with
  | m :: _ => match m_kind m with KField ty _ => Some ty | _ => None end
  | [] => None
  end.

(** The default member initialiser of the non-static data member [n]:
    [None] when there is no such member, [Some None] when it is declared
    without an initialiser. *)
Definition field_init (n : string) (c : class_decl) : option (option init_expr) :=
  match filter is_field (named n c) with
  | m :: _ => match m_kind m with KField _ i => Some i | _ => None end
  | [] => None
  end.

Definition enumerators_of (e : string) (c : class_decl) : option (list string) :=
  match named e c with
  | m :: _ => match m_kind m with KEnum es => Some es | _ => None end
  | [] => None
  end.

Definition method_of (m : member) : option method_decl :=
  match m_kind m with KMethod d => Some d | _ => None end.

End Cpp.

(* ===================================================================== *)
(** ** The header [StereoRendering.h], line by line *)
(* ===================================================================== *)

Module Header.
Import Cpp.

(** A member function declared with [override] and closed by [;]. *)
Definition callback (r : ctype) (name : string) (ps : list (ctype * string)) : line :=
  LMethod name (MkMethod r ps true false).

(** A member function declared without [override] and closed by [;]. *)
Definition helper (r : ctype) (name : string) (ps : list (ctype * string)) : line :=
  LMethod name (MkMethod r ps false false).

Definition SharedPtr (c : string) : ctype := TScoped c "SharedPtr".
Definition UniquePtr (c : string) : ctype := TScoped c "UniquePtr".
Definition std_string : ctype := TScoped "std" "string".
Definition RenderMode_t : ctype := TName "RenderMode".
Definition DropdownList_t : ctype := TScoped "Gui" "DropdownList".

Definition header : list line :=
  (* 1-27: the licence block comment *)
  repeat LComment 27 ++
  [ (* 28 *) LPragmaOnce
  ; (* 29 *) LInclude "Falcor.h"
  ; (* 30 *) LBlank
  ; (* 31 *) LUsingNamespace "Falcor"
  ; (* 32 *) LBlank
  ; (* 33 *) LClassHead "StereoRendering" Public "Renderer"
  ; (* 34 *) LOpenBrace
  ; (* 35 *) LAccess Public
  ; (* 36 *) callback TVoid "onLoad"
               [ (TPtr (TName "SampleCallbacks"), "pSample")
               ; (TPtr (TName "RenderContext"), "pRenderContext") ]
  ; (* 37 *) callback TVoid "onFrameRender"
               [ (TPtr (TName "SampleCallbacks"), "pSample")
               ; (TPtr (TName "RenderContext"), "pRenderContext")
               ; (TConstRef (SharedPtr "Fbo"), "pTargetFbo") ]
  ; (* 38 *) callback TVoid "onResizeSwapChain"
               [ (TPtr (TName "SampleCallbacks"), "pSample")
               ; (TUint32, "width")
               ; (TUint32, "height") ]
  ; (* 39 *) callback TBool "onKeyEvent"
               [ (TPtr (TName "SampleCallbacks"), "pSample")
               ; (TConstRef (TName "KeyboardEvent"), "keyEvent") ]
  ; (* 40 *) callback TBool "onMouseEvent"
               [ (TPtr (TName "SampleCallbacks"), "pSample")
               ; (TConstRef (TName "MouseEvent"), "mouseEvent") ]
  ; (* 41 *) callback TVoid "onGuiRender"
               [ (TPtr (TName "SampleCallbacks"), "pSample")
               ; (TPtr (TName "Gui"), "pGui") ]
  ; (* 42 *) callback TVoid "onPrePresent"
               [ (TPtr (TName "RenderContext"), "pContext") ]
  ; (* 43 *) callback TVoid "onPostPresent"
               [ (TPtr (TName "RenderContext"), "pContext") ]
  ; (* 44 *) LBlank
  ; (* 45 *) LAccess Private
  ; (* 46 *) LBlank
  ; (* 47 *) LField (SharedPtr "Scene") "mpScene" None
  ; (* 48 *) LField (SharedPtr "SceneRenderer") "mpSceneRenderer" None
  ; (* 49 *) LBlank
  ; (* 50 *) LField (SharedPtr "GraphicsProgram") "mpMonoSPSProgram" (Some INullptr)
  ; (* 51 *) LField (SharedPtr "GraphicsVars") "mpMonoSPSVars" (Some INullptr)
  ; (* 52 *) LBlank
  ; (* 53 *) LField (SharedPtr "GraphicsProgram") "mpStereoProgram" (Some INullptr)
  ; (* 54 *) LField (SharedPtr "GraphicsVars") "mpStereoVars" (Some INullptr)
  ; (* 55 *) LBlank
  ; (* 56 *) LField (SharedPtr "GraphicsState") "mpGraphicsState" (Some INullptr)
  ; (* 57 *) LField (SharedPtr "Sampler") "mpTriLinearSampler" None
  ; (* 58 *) LBlank
  ; (* 59 *) helper TVoid "loadScene" []
  ; (* 60 *) helper TVoid "loadScene" [ (TConstRef std_string, "filename") ]
  ; (* 61 *) LBlank
  ; (* 62 *) LEnumClassHead "RenderMode"
  ; (* 63 *) LOpenBrace
  ; (* 64 *) LEnumerator "Mono"
  ; (* 65 *) LEnumerator "Stereo"
  ; (* 66 *) LEnumerator "SinglePassStereo"
  ; (* 67 *) LCloseBrace
  ; (* 68 *) LBlank
  ; (* 69 *) LField TBool "mSPSSupported" (Some (IBool false))
  ; (* 70 *) LField RenderMode_t "mRenderMode" (Some (IEnumerator "RenderMode" "Mono"))
  ; (* 71 *) LField DropdownList_t "mSubmitModeList" None
  ; (* 72 *) LBlank
  ; (* 73 *) helper TVoid "submitToScreen"
               [ (TPtr (TName "RenderContext"), "pContext")
               ; (SharedPtr "Fbo", "pTargetFbo") ]
  ; (* 74 *) helper TVoid "initVR" [ (TPtr (TName "Fbo"), "pTargetFbo") ]
  ; (* 75 *) helper TVoid "blitTexture"
               [ (TPtr (TName "RenderContext"), "pContext")
               ; (TPtr (TName "Fbo"), "pTargetFbo")
               ; (SharedPtr "Texture", "pTexture")
               ; (TUint32, "xStart") ]
  ; (* 76 *) LField (UniquePtr "VrFbo") "mpVrFbo" None
  ; (* 77 *) LField TBool "mShowStereoViews" (Some (IBool true))
  ; (* 78 *) helper TVoid "submitStereo"
               [ (TPtr (TName "RenderContext"), "pContext")
               ; (SharedPtr "Fbo", "pTargetFbo")
               ; (TBool, "singlePassStereo") ]
  ; (* 79 *) helper TVoid "setRenderMode" []
  ; (* 80 *) LBlank
  ; (* 81 *) LStaticConst std_string "skDefaultScene"
  ; (* 82 *) LCloseBrace
  ].

(** Everything the header declares at namespace scope: the result of
    scanning [header], evaluated once (see [parse_header] below). *)
Definition declarations : list class_decl :=
  Eval vm_compute in
  match parse header with
  | Some cs => cs
  | None => []
  end.

(** The class [StereoRendering] as the scanner extracts it from the header. *)
Definition class_StereoRendering : class_decl :=
  Eval vm_compute in
  match declarations with
  | c :: _ => c
  | [] => MkClass "" Private "" []
  end.

(** The eight callbacks of the host framework, in declaration order. *)
Definition framework_callbacks : list string :=
  [ "onLoad"; "onFrameRender"; "onResizeSwapChain"; "onKeyEvent";
    "onMouseEvent"; "onGuiRender"; "onPrePresent"; "onPostPresent" ].

(** [n] names a member the class itself declares under [public:]. *)
Definition declared_public (n : string) : Prop :=
  exists m, In m (c_members class_StereoRendering) /\ m_name m = n /\ m_access m = Public.

(** The special member functions C++ declares implicitly, as public members,
    for a class that declares none of that name itself: the constructors
    (named like the class), the copy assignment operator and the
    destructor. *)
Definition implicit_special_members (c : class_decl) : list string :=
  filter (fun n => match named n c with [] => true | _ => false end)
         [ c_name c; "operator="; String.append "~" (c_name c) ].

(** Access to a member of a [StereoRendering] object from outside the
    class.  A member is accessible when the class declares it under
    [public:], when it is an implicitly declared special member, or when it
    is a public member of the base class and the base is inherited with
    [public] access (line 33).  [Renderer] is declared in [Falcor.h], so its
    public members are the parameter [inherited]. *)
Definition publicly_accessible (inherited : list string) (n : string) : Prop :=
  declared_public n \/
  In n (implicit_special_members class_StereoRendering) \/
  (c_base_access class_StereoRendering = Public /\ In n inherited).

End Header.
(* ===================================================================== *)
(** ** The object state of a [StereoRendering] instance *)
(* ===================================================================== *)

Module Sample.
Import Cpp.

(** [enum class RenderMode { Mono, Stereo, SinglePassStereo }] *)
Inductive RenderMode : Type := Mono | Stereo | SinglePassStereo.

Definition all_modes : list RenderMode := [Mono; Stereo; SinglePassStereo].

Definition RenderMode_name (m : RenderMode) : string :=
  match m with
  | Mono => "Mono"
  | Stereo => "Stereo"
  | SinglePassStereo => "SinglePassStereo"
  end.

Definition RenderMode_of_name (n : string) : option RenderMode :=
  find (fun m => String.eqb (RenderMode_name m) n) all_modes.

(** The nine smart-pointer members ([T::SharedPtr] and [VrFbo::UniquePtr]). *)
Inductive ptr_field : Type :=
| P_mpScene | P_mpSceneRenderer
| P_mpMonoSPSProgram | P_mpMonoSPSVars
| P_mpStereoProgram | P_mpStereoVars
| P_mpGraphicsState | P_mpTriLinearSampler
| P_mpVrFbo.

Definition all_ptr_fields : list ptr_field :=
  [ P_mpScene; P_mpSceneRenderer; P_mpMonoSPSProgram; P_mpMonoSPSVars;
    P_mpStereoProgram; P_mpStereoVars; P_mpGraphicsState; P_mpTriLinearSampler;
    P_mpVrFbo ].

Definition ptr_field_name (f : ptr_field) : string :=
  match f with
  | P_mpScene => "mpScene"
  | P_mpSceneRenderer => "mpSceneRenderer"
  | P_mpMonoSPSProgram => "mpMonoSPSProgram"
  | P_mpMonoSPSVars => "mpMonoSPSVars"
  | P_mpStereoProgram => "mpStereoProgram"
  | P_mpStereoVars => "mpStereoVars"
  | P_mpGraphicsState => "mpGraphicsState"
  | P_mpTriLinearSampler => "mpTriLinearSampler"
  | P_mpVrFbo => "mpVrFbo"
  end.

(** The members the header initialises with [= nullptr] (lines 50-56). *)
Definition nullptr_initialised : list ptr_field :=
  [ P_mpMonoSPSProgram; P_mpMonoSPSVars; P_mpStereoProgram; P_mpStereoVars;
    P_mpGraphicsState ].

Definition is_nullptr_init (i : option (option init_expr)) : bool :=
  match i with
  | Some (Some INullptr) => true
  | _ => false
  end.

Section Object.

(** What [Falcor.h] provides and the repository does not contain: the
    engine objects the smart pointers refer to, the base class [Renderer],
    and [Gui::DropdownList] with its default-constructed value. *)
Variable Resource : Type.
Variable Renderer : Type.
Variable DropdownList : Type.
Variable DropdownList_default : DropdownList.

(** A smart pointer is null ([None]) or refers to an engine object. *)
Definition pointer : Type := option Resource.

Record StereoRendering : Type := MkStereoRendering {
  base : Renderer;
  mpScene : pointer;
  mpSceneRenderer : pointer;
  mpMonoSPSProgram : pointer;
  mpMonoSPSVars : pointer;
  mpStereoProgram : pointer;
  mpStereoVars : pointer;
  mpGraphicsState : pointer;
  mpTriLinearSampler : pointer;
  mSPSSupported : bool;
  mRenderMode : RenderMode;
  mSubmitModeList : DropdownList;
  mpVrFbo : pointer;
  mShowStereoViews : bool
}.

(** *** Default construction

    The class declares no constructor, so an object is built by the implicit
    default constructor: every member takes its default member initialiser
    when the header gives one and is default-initialised otherwise.  A
    default-initialised smart pointer is null; a default-initialised [bool]
    or enum has no determinate value, which the evaluators below report as
    [None]. *)

Definition init_pointer (i : option (option init_expr)) : option pointer :=
  match i with
  | Some None => Some None
  | Some (Some INullptr) => Some None
  | _ => None
  end.

Definition init_bool (i : option (option init_expr)) : option bool :=
  match i with
  | Some (Some (IBool b)) => Some b
  | _ => None
  end.

Definition init_mode (i : option (option init_expr)) : option RenderMode :=
  match i with
  | Some (Some (IEnumerator e n)) =>
      if String.eqb e "RenderMode" then RenderMode_of_name n else None
  | _ => None
  end.

Definition init_list (i : option (option init_expr)) : option DropdownList :=
  match i with
  | Some None => Some DropdownList_default
  | _ => None
  end.

Notation "x <- e ;; k" := (match e with Some x => k | None => None end)
  (at level 61, e at next level, right associativity).

Definition default_construct_from (c : class_decl) (b : Renderer)
  : option StereoRendering :=
  scene <- init_pointer (field_init "mpScene" c) ;;
  renderer <- init_pointer (field_init "mpSceneRenderer" c) ;;
  monoProg <- init_pointer (field_init "mpMonoSPSProgram" c) ;;
  monoVars <- init_pointer (field_init "mpMonoSPSVars" c) ;;
  stereoProg <- init_pointer (field_init "mpStereoProgram" c) ;;
  stereoVars <- init_pointer (field_init "mpStereoVars" c) ;;
  gstate <- init_pointer (field_init "mpGraphicsState" c) ;;
  sampler <- init_pointer (field_init "mpTriLinearSampler" c) ;;
  sps <- init_bool (field_init "mSPSSupported" c) ;;
  mode <- init_mode (field_init "mRenderMode" c) ;;
  modes <- init_list (field_init "mSubmitModeList" c) ;;
  vrFbo <- init_pointer (field_init "mpVrFbo" c) ;;
  showViews <- init_bool (field_init "mShowStereoViews" c) ;;
  Some (MkStereoRendering b scene renderer monoProg monoVars stereoProg
          stereoVars gstate sampler sps mode modes vrFbo showViews).

Definition default_construct (b : Renderer) : option StereoRendering :=
  default_construct_from Header.class_StereoRendering b.

(** *** Member access and member writes *)

Definition get_ptr (f : ptr_field) (s : StereoRendering) : pointer :=
  match f with
  | P_mpScene => mpScene s
  | P_mpSceneRenderer => mpSceneRenderer s
  | P_mpMonoSPSProgram => mpMonoSPSProgram s
  | P_mpMonoSPSVars => mpMonoSPSVars s
  | P_mpStereoProgram => mpStereoProgram s
  | P_mpStereoVars => mpStereoVars s
  | P_mpGraphicsState => mpGraphicsState s
  | P_mpTriLinearSampler => mpTriLinearSampler s
  | P_mpVrFbo => mpVrFbo s
  end.

Definition set_ptr (f : ptr_field) (p : pointer) (s : StereoRendering)
  : StereoRendering :=
  let '(MkStereoRendering b sc sr mp mv sp sv gs ts sps rm sl vf sh) := s in
  match f with
  | P_mpScene => MkStereoRendering b p sr mp mv sp sv gs ts sps rm sl vf sh
  | P_mpSceneRenderer => MkStereoRendering b sc p mp mv sp sv gs ts sps rm sl vf sh
  | P_mpMonoSPSProgram => MkStereoRendering b sc sr p mv sp sv gs ts sps rm sl vf sh
  | P_mpMonoSPSVars => MkStereoRendering b sc sr mp p sp sv gs ts sps rm sl vf sh
  | P_mpStereoProgram => MkStereoRendering b sc sr mp mv p sv gs ts sps rm sl vf sh
  | P_mpStereoVars => MkStereoRendering b sc sr mp mv sp p gs ts sps rm sl vf sh
  | P_mpGraphicsState => MkStereoRendering b sc sr mp mv sp sv p ts sps rm sl vf sh
  | P_mpTriLinearSampler => MkStereoRendering b sc sr mp mv sp sv gs p sps rm sl vf sh
  | P_mpVrFbo => MkStereoRendering b sc sr mp mv sp sv gs ts sps rm sl p sh
  end.

(** An assignment to one data member, the only way a member function
    changes the object. *)
Inductive write : Type :=
| WPtr (f : ptr_field) (p : pointer)
| W_mSPSSupported (v : bool)
| W_mRenderMode (v : RenderMode)
| W_mSubmitModeList (v : DropdownList)
| W_mShowStereoViews (v : bool).

Definition apply_write (w : write) (s : StereoRendering) : StereoRendering :=
  match w with
  | WPtr f p => set_ptr f p s
  | W_mSPSSupported v =>
      let '(MkStereoRendering b sc sr mp mv sp sv gs ts _ rm sl vf sh) := s in
      MkStereoRendering b sc sr mp mv sp sv gs ts v rm sl vf sh
  | W_mRenderMode v =>
      let '(MkStereoRendering b sc sr mp mv sp sv gs ts sps _ sl vf sh) := s in
      MkStereoRendering b sc sr mp mv sp sv gs ts sps v sl vf sh
  | W_mSubmitModeList v =>
      let '(MkStereoRendering b sc sr mp mv sp sv gs ts sps rm _ vf sh) := s in
      MkStereoRendering b sc sr mp mv sp sv gs ts sps rm v vf sh
  | W_mShowStereoViews v =>
      let '(MkStereoRendering b sc sr mp mv sp sv gs ts sps rm sl vf _) := s in
      MkStereoRendering b sc sr mp mv sp sv gs ts sps rm sl vf v
  end.

(** The effect on the object of a run of member functions: the writes they
    perform, in order. *)
Definition run_writes (ws : list write) (s : StereoRendering) : StereoRendering :=
  fold_left (fun s' w => apply_write w s') ws s.

(** Modelled from the spec: the body of [onGuiRender] is not in the
    repository.  The spec says the sample "lets a user toggle between modes
    through a GUI dropdown": the entry the user selects in the dropdown
    becomes the value of [mRenderMode]; nothing else is said to change. *)
Definition onGuiRender_dropdown (selection : RenderMode) (s : StereoRendering)
  : StereoRendering :=
  apply_write (W_mRenderMode selection) s.

(** Modelled from the spec: the body of [onLoad] is not in the repository.
    The spec says the class "set[s] up two shader programs (mono and
    stereo)" by calls into the engine's "shader-variable binding" API: the
    engine hands over the two programs and, for each program, its
    shader-variable object; each program goes to its program member and its
    variables to the variables member declared with it (lines 50-51 and
    53-54).  [vars_for] is the engine's creation of the variables of a
    program. *)
Definition onLoad_programs (vars_for : Resource -> Resource)
  (mono stereo : Resource) (s : StereoRendering) : StereoRendering :=
  run_writes
    [ WPtr P_mpMonoSPSProgram (Some mono);
      WPtr P_mpMonoSPSVars (Some (vars_for mono));
      WPtr P_mpStereoProgram (Some stereo);
      WPtr P_mpStereoVars (Some (vars_for stereo)) ] s.

(** Modelled from the spec: the body of [initVR] is not in the repository.
    The spec says the class "manage[s] a VR-specific framebuffer object",
    the VrFbo being "a framebuffer object abstraction sized/formatted for VR
    headset stereo output": the framebuffer the engine makes for the headset
    is kept in [mpVrFbo], the one member of that type. *)
Definition initVR (vrFbo : Resource) (s : StereoRendering) : StereoRendering :=
  apply_write (WPtr P_mpVrFbo (Some vrFbo)) s.

End Object.

Arguments base {Resource Renderer DropdownList} _.
Arguments mpScene {Resource Renderer DropdownList} _.
Arguments mpSceneRenderer {Resource Renderer DropdownList} _.
Arguments mpMonoSPSProgram {Resource Renderer DropdownList} _.
Arguments mpMonoSPSVars {Resource Renderer DropdownList} _.
Arguments mpStereoProgram {Resource Renderer DropdownList} _.
Arguments mpStereoVars {Resource Renderer DropdownList} _.
Arguments mpGraphicsState {Resource Renderer DropdownList} _.
Arguments mpTriLinearSampler {Resource Renderer DropdownList} _.
Arguments mSPSSupported {Resource Renderer DropdownList} _.
Arguments mRenderMode {Resource Renderer DropdownList} _.
Arguments mSubmitModeList {Resource Renderer DropdownList} _.
Arguments mpVrFbo {Resource Renderer DropdownList} _.
Arguments mShowStereoViews {Resource Renderer DropdownList} _.
Arguments default_construct {Resource Renderer DropdownList} _ _.
Arguments get_ptr {Resource Renderer DropdownList} _ _.
Arguments set_ptr {Resource Renderer DropdownList} _ _ _.
Arguments WPtr {Resource DropdownList} _ _.
Arguments W_mSPSSupported {Resource DropdownList} _.
Arguments W_mRenderMode {Resource DropdownList} _.
Arguments W_mSubmitModeList {Resource DropdownList} _.
Arguments W_mShowStereoViews {Resource DropdownList} _.
Arguments apply_write {Resource Renderer DropdownList} _ _.
Arguments run_writes {Resource Renderer DropdownList} _ _.
Arguments onGuiRender_dropdown {Resource Renderer DropdownList} _ _.
Arguments onLoad_programs {Resource Renderer DropdownList} _ _ _ _.
Arguments initVR {Resource Renderer DropdownList} _ _.

End Sample.
(* ===================================================================== *)
(** ** Calls into the host engine *)
(* ===================================================================== *)

Module Engine.

Inductive outcome (World Failure : Type) : Type :=
| Done (w : World)
| Failed (e : Failure).

Arguments Done {World Failure} _.
Arguments Failed {World Failure} _.

Section Host.

(** The host engine is not part of the repository: its state, the calls
    its API offers and the failures a call can end in are left open. *)
Variable World : Type.
Variable Call : Type.
Variable Failure : Type.
Variable engine : Call -> World -> outcome World Failure.

(** Modelled from the spec: the bodies of the member functions are not in
    the repository.  The spec says every operation "is a thin sequence of
    calls into the host engine's scene graph, shader-variable binding, and
    swap-chain APIs" and that "any failure handling is delegated to the host
    engine": an operation performs its calls in order, and a call that fails
    ends the operation with the engine's failure. *)
Fixpoint run_calls (cs : list Call) (w : World) : outcome World Failure :=
  match cs with
  | [] => Done w
  | c :: cs' =>
      match engine c w with
      | Done w' => run_calls cs' w'
      | Failed e => Failed e
      end
  end.

End Host.

Arguments run_calls {World Call Failure} _ _ _.

End Engine.

(* ===================================================================== *)
(** ** Properties of the declaration *)
(* ===================================================================== *)

Import Cpp Header Sample Engine.

(** The operations the specification names. *)
Definition named_operations : list string :=
  [ "onLoad"; "onFrameRender"; "submitStereo"; "submitToScreen"; "blitTexture";
    "initVR"; "loadScene"; "setRenderMode" ].

(** [n] names at least one member, and every member of that name is a
    member function whose declaration has no body. *)
Definition declared_without_definition (n : string) : bool :=
  match named n class_StereoRendering with
  | [] => false
  | ms => forallb (fun m => match method_of m with
                            | Some d => negb (has_body d)
                            | None => false
                            end) ms
  end.

(** What a data member holds, judged by the type the header gives it. *)
Inductive state_class : Type :=
| EngineHandle        (* T::SharedPtr, T::UniquePtr: refers to an engine object *)
| GuiList             (* Gui::DropdownList *)
| ModeEnum            (* RenderMode *)
| Flag.               (* bool *)

Definition classify (t : ctype) : option state_class :=
  match t with
  | TBool => Some Flag
  | TName n => if String.eqb n "RenderMode" then Some ModeEnum else None
  | TScoped c n =>
      if String.eqb n "SharedPtr" || String.eqb n "UniquePtr" then Some EngineHandle
      else if String.eqb c "Gui" && String.eqb n "DropdownList" then Some GuiList
      else None
  | _ => None
  end.

Definition classify_member (m : member) : option state_class :=
  match m_kind m with
  | KField ty _ => classify ty
  | _ => None
  end.

(** The non-static data members whose type lives in the scope of class [c]
    ([c::SharedPtr], [c::UniquePtr], ...). *)
Definition fields_in_scope (c : string) : list string :=
  map m_name
    (filter (fun m => match m_kind m with
                      | KField (TScoped s _) _ => String.eqb s c
                      | _ => false
                      end)
            (c_members class_StereoRendering)).

(** What tells two member functions of one name apart: the name together
    with the parameter types. *)
Definition signature (m : member) : option (string * list ctype) :=
  match m_kind m with
  | KMethod d => Some (m_name m, map fst (params d))
  | _ => None
  end.

Definition signatures (c : class_decl) : list (string * list ctype) :=
  flat_map (fun m => match signature m with Some g => [g] | None => [] end)
           (c_members c).

Fixpoint ctypes_eqb (a b : list ctype) : bool :=
  match a, b with
  | [], [] => true
  | x :: a', y :: b' => ctype_eqb x y && ctypes_eqb a' b'
  | _, _ => false
  end.

Definition signature_eqb (a b : string * list ctype) : bool :=
  String.eqb (fst a) (fst b) && ctypes_eqb (snd a) (snd b).

Fixpoint distinct_signatures (l : list (string * list ctype)) : bool :=
  match l with
  | [] => true
  | g :: r => negb (existsb (signature_eqb g) r) && distinct_signatures r
  end.

(** A default member initialiser fits the type of its member: [nullptr] a
    smart pointer, [true] / [false] a [bool], [E::x] a member of type [E]
    when [x] is an enumerator of the enum [E] declared in the class. *)
Definition initialiser_fits (c : class_decl) (t : ctype) (e : init_expr) : bool :=
  match e, t with
  | INullptr, TScoped _ n => String.eqb n "SharedPtr" || String.eqb n "UniquePtr"
  | IBool _, TBool => true
  | IEnumerator en x, TName n =>
      String.eqb en n &&
      match enumerators_of n c with
      | Some xs => existsb (String.eqb x) xs
      | None => false
      end
  | _, _ => false
  end.

(** A smart pointer [C::SharedPtr] or [C::UniquePtr], or the dropdown list
    [Gui::DropdownList]. *)
Definition is_handle_or_list (t : ctype) : bool :=
  match classify t with
  | Some EngineHandle | Some GuiList => true
  | _ => false
  end.

(** The check on one member: a data member either has an initialiser that
    fits or, lacking one, is a smart pointer or the dropdown list. *)
Definition field_initialised (c : class_decl) (m : member) : bool :=
  match m_kind m with
  | KField t (Some e) => initialiser_fits c t e
  | KField t None => is_handle_or_list t
  | _ => true
  end.

(** The check on one member: a member function is marked [override]
    exactly when it is public. *)
Definition override_matches_access (m : member) : bool :=
  match m_kind m with
  | KMethod d => Bool.eqb (is_override d) (is_public m)
  | _ => true
  end.

(** Closed facts about the header are settled by evaluation. *)
Ltac by_evaluation := vm_compute; reflexivity.

Lemma parse_header :
  parse header = Some [class_StereoRendering].
Proof. by_evaluation. Qed.

Lemma header_members :
  map (fun m => (m_line m, m_access m, m_name m)) (c_members class_StereoRendering) =
  [ (36, Public, "onLoad"); (37, Public, "onFrameRender");
    (38, Public, "onResizeSwapChain"); (39, Public, "onKeyEvent");
    (40, Public, "onMouseEvent"); (41, Public, "onGuiRender");
    (42, Public, "onPrePresent"); (43, Public, "onPostPresent");
    (47, Private, "mpScene"); (48, Private, "mpSceneRenderer");
    (50, Private, "mpMonoSPSProgram"); (51, Private, "mpMonoSPSVars");
    (53, Private, "mpStereoProgram"); (54, Private, "mpStereoVars");
    (56, Private, "mpGraphicsState"); (57, Private, "mpTriLinearSampler");
    (59, Private, "loadScene"); (60, Private, "loadScene");
    (62, Private, "RenderMode");
    (69, Private, "mSPSSupported"); (70, Private, "mRenderMode");
    (71, Private, "mSubmitModeList");
    (73, Private, "submitToScreen"); (74, Private, "initVR");
    (75, Private, "blitTexture");
    (76, Private, "mpVrFbo"); (77, Private, "mShowStereoViews");
    (78, Private, "submitStereo"); (79, Private, "setRenderMode");
    (81, Private, "skDefaultScene") ].
Proof. by_evaluation. Qed.

(** The access label in force is the only thing that makes a member public:
    a class body that opens and meets no label yields private members. *)
Lemma scan_default_access (name base f : string) (ba : access) (t : ctype) :
  parse [LClassHead name ba base; LOpenBrace; LField t f None; LCloseBrace] =
  Some [MkClass name ba base [MkMember 3 Private f (KField t None)]].
Proof. by_evaluation. Qed.

Lemma existsb_eqb_In (n : string) (l : list string) :
  existsb (String.eqb n) l = true <-> In n l.
Proof.
  rewrite existsb_exists. split.
  - intros (x & Hin & Heq). apply String.eqb_eq in Heq. subst. exact Hin.
  - intros Hin. exists n. split; [exact Hin | apply String.eqb_refl].
Qed.

Lemma is_public_spec (m : member) : is_public m = true <-> m_access m = Public.
Proof. unfold is_public. destruct (m_access m); cbn; split; congruence. Qed.

Lemma not_in_strings (n : string) (l : list string) :
  existsb (String.eqb n) l = false -> ~ In n l.
Proof. intros H Hin. apply existsb_eqb_In in Hin. congruence. Qed.

Lemma NoDup_strings (l : list string) :
  (fix nodupb (l : list string) : bool :=
     match l with
     | [] => true
     | x :: r => negb (existsb (String.eqb x) r) && nodupb r
     end) l = true -> NoDup l.
Proof.
  induction l as [| x r IH]; intros H; constructor.
  - apply andb_prop in H. destruct H as [H _].
    apply not_in_strings. now apply negb_true_iff in H.
  - apply IH. apply andb_prop in H. tauto.
Qed.

(** The record of the object state has one field per non-static data member
    of the header, in declaration order. *)
Lemma record_matches_header :
  map m_name (fields class_StereoRendering) =
  [ "mpScene"; "mpSceneRenderer"; "mpMonoSPSProgram"; "mpMonoSPSVars";
    "mpStereoProgram"; "mpStereoVars"; "mpGraphicsState"; "mpTriLinearSampler";
    "mSPSSupported"; "mRenderMode"; "mSubmitModeList"; "mpVrFbo";
    "mShowStereoViews" ].
Proof. by_evaluation. Qed.

Lemma ptr_fields_in_header :
  map (fun f => option_map classify
                  (field_type (ptr_field_name f) class_StereoRendering))
      all_ptr_fields
  = repeat (Some (Some EngineHandle)) 9.
Proof. by_evaluation. Qed.

Lemma nullptr_initialised_spec :
  filter (fun f => is_nullptr_init
                     (field_init (ptr_field_name f) class_StereoRendering))
         all_ptr_fields
  = nullptr_initialised.
Proof. by_evaluation. Qed.

(** Every non-static data member is an engine handle, the dropdown list, the
    render mode or a flag: nine handles, one list, one mode, two flags. *)
Lemma data_members_classified :
  map classify_member (fields class_StereoRendering) =
  repeat (Some EngineHandle) 8 ++
  [ Some Flag; Some ModeEnum; Some GuiList; Some EngineHandle; Some Flag ].
Proof. by_evaluation. Qed.

(** The members under [public:] are the framework callbacks. *)
Lemma public_member_names :
  map m_name (public_members class_StereoRendering) = framework_callbacks.
Proof. by_evaluation. Qed.

Lemma public_iff_callback (m : member) :
  In m (c_members class_StereoRendering) ->
  (m_access m = Public <-> In (m_name m) framework_callbacks).
Proof.
  intros H.
  assert (Hb : forallb (fun m => Bool.eqb (is_public m)
                 (existsb (String.eqb (m_name m)) framework_callbacks))
                 (c_members class_StereoRendering) = true) by by_evaluation.
  rewrite forallb_forall in Hb. specialize (Hb m H).
  apply eqb_prop in Hb.
  rewrite <- is_public_spec, <- existsb_eqb_In, Hb. tauto.
Qed.

Lemma public_members_In (c : class_decl) (m : member) :
  In m (public_members c) <-> In m (c_members c) /\ m_access m = Public.
Proof.
  unfold public_members. rewrite filter_In, is_public_spec. tauto.
Qed.

Lemma declared_public_iff (n : string) :
  declared_public n <-> In n framework_callbacks.
Proof.
  split.
  - intros (m & Hin & <- & Ha). apply public_iff_callback; assumption.
  - intros H. rewrite <- public_member_names in H.
    apply in_map_iff in H. destruct H as (m & Hn & Hin).
    apply public_members_In in Hin. destruct Hin as [Hin Hp].
    exists m. split; [exact Hin | split; [exact Hn | exact Hp]].
Qed.

Lemma implicit_special_members_eq :
  implicit_special_members class_StereoRendering
  = [ "StereoRendering"; "operator="; "~StereoRendering" ].
Proof. by_evaluation. Qed.

Lemma base_is_public : c_base_access class_StereoRendering = Public.
Proof. reflexivity. Qed.

Lemma publicly_accessible_iff (inherited : list string) (n : string) :
  publicly_accessible inherited n <->
  In n framework_callbacks \/
  In n [ "StereoRendering"; "operator="; "~StereoRendering" ] \/
  In n inherited.
Proof.
  unfold publicly_accessible.
  rewrite declared_public_iff, implicit_special_members_eq.
  pose proof base_is_public. tauto.
Qed.

(** C2, as stated: no member other than the eight callbacks would be
    publicly accessible.  The class declares no destructor, so the implicit
    public destructor is accessible and is none of the eight; and because
    the base is inherited with [public] access, so is any public member of
    [Renderer]. *)
Lemma C2_public_interface_counterexample :
  publicly_accessible [] "~StereoRendering" /\
  (In "~StereoRendering" framework_callbacks -> False) /\
  named "~StereoRendering" class_StereoRendering = [] /\
  c_base_access class_StereoRendering = Public.
Proof.
  split.
  - apply publicly_accessible_iff. right. left. cbn. tauto.
  - split; [apply not_in_strings; by_evaluation | ].
    split; [by_evaluation | reflexivity].
Qed.

(** C2, amended: the members the class itself declares under [public:] are
    exactly the eight framework callbacks [onLoad], [onFrameRender],
    [onResizeSwapChain], [onKeyEvent], [onMouseEvent], [onGuiRender],
    [onPrePresent] and [onPostPresent], each a member function marked
    [override]; a member the class declares is public if and only if it is
    one of them.  The publicly accessible members are these eight, the
    implicitly declared special members (constructors, copy assignment,
    destructor) and the public members inherited from [Renderer]. *)
Theorem C2_public_interface :
  map m_name (public_members class_StereoRendering) = framework_callbacks /\
  List.length framework_callbacks = 8 /\
  NoDup framework_callbacks /\
  map (fun m => option_map is_override (method_of m))
      (public_members class_StereoRendering) = repeat (Some true) 8 /\
  (forall m, In m (c_members class_StereoRendering) ->
     (m_access m = Public <-> In (m_name m) framework_callbacks)) /\
  (forall n, declared_public n <-> In n framework_callbacks) /\
  (forall inherited n,
     publicly_accessible inherited n <->
     In n framework_callbacks \/
     In n [ "StereoRendering"; "operator="; "~StereoRendering" ] \/
     In n inherited).
Proof.
  split; [exact public_member_names | ].
  split; [reflexivity | ].
  split; [apply NoDup_strings; by_evaluation | ].
  split; [by_evaluation | ].
  split; [exact public_iff_callback | ].
  split; [exact declared_public_iff | exact publicly_accessible_iff].
Qed.

Lemma skDefaultScene_not_declared_public : ~ declared_public "skDefaultScene".
Proof.
  rewrite declared_public_iff. apply not_in_strings. by_evaluation.
Qed.

(** C3, as stated: [skDefaultScene] would be externally accessible.  It is
    not: the header declares it after the [private:] label of line 45. *)
Lemma C3_skDefaultScene_counterexample :
  (declared_public "skDefaultScene" -> False) /\
  map m_access (named "skDefaultScene" class_StereoRendering) = [Private].
Proof.
  split; [exact skDefaultScene_not_declared_public | by_evaluation].
Qed.

(** C3, amended: the class declares [skDefaultScene] exactly once, on line
    81, as a private [static const std::string]; it is not among the members
    the class declares under [public:]. *)
Theorem C3_skDefaultScene_private :
  named "skDefaultScene" class_StereoRendering =
    [MkMember 81 Private "skDefaultScene" (KStaticConst std_string)] /\
  ~ declared_public "skDefaultScene" /\
  ~ In "skDefaultScene" (map m_name (public_members class_StereoRendering)).
Proof.
  split; [by_evaluation | ].
  split; [exact skDefaultScene_not_declared_public | ].
  apply not_in_strings. by_evaluation.
Qed.

Lemma methods_have_no_body (c : class_decl) :
  forallb (fun m => match method_of m with
                    | Some d => negb (has_body d)
                    | None => true
                    end) (c_members c) = true ->
  forall m d, In m (c_members c) -> method_of m = Some d -> has_body d = false.
Proof.
  intros H m d Hin Hm. rewrite forallb_forall in H.
  specialize (H m Hin). rewrite Hm in H. now apply negb_true_iff in H.
Qed.

(** C4: the header has 82 lines and declares one thing, the class
    [StereoRendering]; each of its fifteen member-function declarations is
    closed by [;] and has no body, in particular those of [onLoad],
    [onFrameRender], [submitStereo], [submitToScreen], [blitTexture],
    [initVR], [loadScene] (both overloads) and [setRenderMode]. *)
Theorem C4_declarations_only :
  List.length header = 82 /\
  parse header = Some [class_StereoRendering] /\
  map c_name declarations = ["StereoRendering"] /\
  List.length (methods class_StereoRendering) = 15 /\
  (forall m d, In m (c_members class_StereoRendering) ->
     method_of m = Some d -> has_body d = false) /\
  map declared_without_definition named_operations = repeat true 8.
Proof.
  split; [by_evaluation | ].
  split; [exact parse_header | ].
  split; [by_evaluation | ].
  split; [by_evaluation | ].
  split; [apply methods_have_no_body; by_evaluation | by_evaluation].
Qed.

(* ===================================================================== *)
(** ** Properties of the object state *)
(* ===================================================================== *)

Lemma RenderMode_exhaustive (m : RenderMode) : In m all_modes.
Proof. destruct m; cbn; auto. Qed.

Lemma all_modes_NoDup : NoDup all_modes.
Proof.
  unfold all_modes.
  repeat (constructor; [cbn; intuition discriminate | ]). constructor.
Qed.

Lemma RenderMode_name_roundtrip (m : RenderMode) :
  RenderMode_of_name (RenderMode_name m) = Some m.
Proof. destruct m; reflexivity. Qed.

Section ObjectFacts.

Context {Resource Renderer DropdownList : Type}.
Variable dflt : DropdownList.

Implicit Types (s : StereoRendering Resource Renderer DropdownList).
Implicit Types (w : @write Resource DropdownList).
Implicit Types (ws : list (@write Resource DropdownList)).

(** The object the implicit default constructor builds. *)
Lemma default_construct_eq (b : Renderer) :
  default_construct dflt b =
  Some (MkStereoRendering Resource Renderer DropdownList b
          None None None None None None None None false Mono dflt None true).
Proof. by_evaluation. Qed.

Lemma get_set_ptr_same (f : ptr_field) (p : pointer Resource) s :
  get_ptr f (set_ptr f p s) = p.
Proof. destruct s, f; reflexivity. Qed.

Lemma get_set_ptr_other (f g : ptr_field) (p : pointer Resource) s :
  f <> g -> get_ptr g (set_ptr f p s) = get_ptr g s.
Proof. intros H. destruct s, f, g; try reflexivity; contradiction. Qed.

(** A write leaves every pointer member it does not name as it was. *)
Lemma get_ptr_apply_write (f : ptr_field) w s :
  (forall p, w <> WPtr f p) -> get_ptr f (apply_write w s) = get_ptr f s.
Proof.
  intros H. destruct w as [g p | v | v | v | v].
  - cbn. apply get_set_ptr_other. intros ->. exact (H p eq_refl).
  - destruct s, f; reflexivity.
  - destruct s, f; reflexivity.
  - destruct s, f; reflexivity.
  - destruct s, f; reflexivity.
Qed.

Lemma run_writes_app (ws1 ws2 : list (@write Resource DropdownList)) s :
  run_writes (ws1 ++ ws2) s = run_writes ws2 (run_writes ws1 s).
Proof. unfold run_writes. apply fold_left_app. Qed.

(** Frame rule for runs of writes. *)
Lemma get_ptr_run_writes (f : ptr_field) ws s :
  (forall p, ~ In (WPtr f p) ws) -> get_ptr f (run_writes ws s) = get_ptr f s.
Proof.
  revert s. induction ws as [| w ws IH]; intros s H; [reflexivity | ].
  change (run_writes (w :: ws) s) with (run_writes ws (apply_write w s)).
  rewrite IH.
  - apply get_ptr_apply_write. intros p ->. apply (H p). now left.
  - intros p Hin. apply (H p). now right.
Qed.

Lemma mRenderMode_apply_write (v : RenderMode) s :
  mRenderMode (apply_write (W_mRenderMode v) s) = v.
Proof. destruct s; reflexivity. Qed.

End ObjectFacts.


(** C1: the render mode takes exactly three values, [Mono], [Stereo] and
    [SinglePassStereo], the enumerators of [enum class RenderMode] in the
    header; [mRenderMode] has that type and sits next to the dropdown list
    [mSubmitModeList]; and the entry selected in the dropdown becomes the
    value of [mRenderMode], whatever the mode was before, while the pointer
    members keep their values. *)
Theorem C1_three_modes_and_dropdown :
  enumerators_of "RenderMode" class_StereoRendering
    = Some (map RenderMode_name all_modes) /\
  List.length all_modes = 3 /\
  NoDup all_modes /\
  (forall m : RenderMode, m = Mono \/ m = Stereo \/ m = SinglePassStereo) /\
  field_type "mRenderMode" class_StereoRendering = Some RenderMode_t /\
  field_type "mSubmitModeList" class_StereoRendering = Some DropdownList_t /\
  (forall (Resource Renderer DropdownList : Type)
          (s : StereoRendering Resource Renderer DropdownList)
          (selection : RenderMode),
      mRenderMode (onGuiRender_dropdown selection s) = selection /\
      forall f, get_ptr f (onGuiRender_dropdown selection s) = get_ptr f s).
Proof.
  split; [by_evaluation | ].
  split; [reflexivity | ].
  split; [exact all_modes_NoDup | ].
  split; [intros []; auto | ].
  split; [by_evaluation | ].
  split; [by_evaluation | ].
  intros Resource Renderer DropdownList s selection. split.
  - apply mRenderMode_apply_write.
  - intros f. apply get_ptr_apply_write. intros p. discriminate.
Qed.

(** C9: every default-constructed object exists and has [mRenderMode] equal
    to [RenderMode::Mono], [mSPSSupported] equal to [false] and
    [mShowStereoViews] equal to [true], whatever the base-class part is. *)
Theorem C9_default_mode_and_flags
  (Resource Renderer DropdownList : Type) (dflt : DropdownList) (b : Renderer) :
  exists s : StereoRendering Resource Renderer DropdownList,
    default_construct dflt b = Some s /\
    base s = b /\
    mRenderMode s = Mono /\
    mSPSSupported s = false /\
    mShowStereoViews s = true.
Proof.
  eexists. split; [apply default_construct_eq | ].
  repeat split.
Qed.

(** C10: in every default-constructed object each of [mpMonoSPSProgram],
    [mpMonoSPSVars], [mpStereoProgram], [mpStereoVars] and [mpGraphicsState]
    is null; it is still null after any run of member writes that does not
    assign it, and holds the assigned pointer once a write assigns it. *)
Theorem C10_handles_null_until_assigned
  (Resource Renderer DropdownList : Type) (dflt : DropdownList) (b : Renderer)
  (f : ptr_field) (ws : list (@write Resource DropdownList)) :
  In f nullptr_initialised ->
  (forall p, ~ In (WPtr f p) ws) ->
  exists s : StereoRendering Resource Renderer DropdownList,
    default_construct dflt b = Some s /\
    get_ptr f s = None /\
    get_ptr f (run_writes ws s) = None /\
    forall p, get_ptr f (run_writes (ws ++ [WPtr f p]) s) = p.
Proof.
  intros Hf Hws. eexists. split; [apply default_construct_eq | ].
  assert (H0 : get_ptr f
            (MkStereoRendering Resource Renderer DropdownList b
               None None None None None None None None false Mono dflt None true)
            = None) by (destruct f; reflexivity).
  split; [exact H0 | ].
  split.
  - rewrite get_ptr_run_writes; assumption.
  - intros p. rewrite run_writes_app. cbn. apply get_set_ptr_same.
Qed.

(** C10 at a concrete run: an object over [nat] resources whose scene, render
    mode and dropdown list are written; [mpStereoProgram] is not, and stays
    null until the final write assigns it. *)
Lemma C10_handles_null_until_assigned_witness :
  In P_mpStereoProgram nullptr_initialised /\
  (forall p, ~ In (WPtr P_mpStereoProgram p)
                  [WPtr P_mpScene (Some 7); W_mRenderMode Stereo;
                   W_mSubmitModeList [(1, "Stereo")]]) /\
  exists s : StereoRendering nat unit (list (nat * string)),
    default_construct [] tt = Some s /\
    get_ptr P_mpStereoProgram s = None /\
    get_ptr P_mpStereoProgram
      (run_writes [WPtr P_mpScene (Some 7); W_mRenderMode Stereo;
                   W_mSubmitModeList [(1, "Stereo")]] s) = None /\
    forall p, get_ptr P_mpStereoProgram
      (run_writes ([WPtr P_mpScene (Some 7); W_mRenderMode Stereo;
                    W_mSubmitModeList [(1, "Stereo")]]
                   ++ [WPtr P_mpStereoProgram p]) s) = p.
Proof.
  assert (H1 : In P_mpStereoProgram nullptr_initialised) by (simpl; tauto).
  assert (H2 : forall p, ~ In (WPtr P_mpStereoProgram p)
                  [WPtr P_mpScene (Some 7); W_mRenderMode Stereo;
                   W_mSubmitModeList [(1, "Stereo")]]).
  { intros p H. simpl in H. destruct H as [H | [H | [H | H]]];
      [discriminate | discriminate | discriminate | exact H]. }
  split; [exact H1 | split; [exact H2 | ]].
  exact (C10_handles_null_until_assigned nat unit (list (nat * string)) [] tt
           P_mpStereoProgram _ H1 H2).
Defined.

(* ===================================================================== *)
(** ** Failures of host-engine calls *)
(* ===================================================================== *)

Section EngineFacts.

Context {World Call Failure : Type}.
Variable engine : Call -> World -> outcome World Failure.

Lemma run_calls_app (cs1 cs2 : list Call) (w : World) :
  run_calls engine (cs1 ++ cs2) w =
  match run_calls engine cs1 w with
  | Done w' => run_calls engine cs2 w'
  | Failed e => Failed e
  end.
Proof.
  revert w. induction cs1 as [| c cs1 IH]; intros w; cbn; [reflexivity | ].
  destruct (engine c w); [apply IH | reflexivity].
Qed.

(** An operation ends in a failure exactly when one of its calls, reached
    after all earlier calls succeeded, ends in that failure. *)
Lemma run_calls_failed_iff (cs : list Call) (w : World) (e : Failure) :
  run_calls engine cs w = Failed e <->
  exists pre c post w',
    cs = pre ++ c :: post /\
    run_calls engine pre w = Done w' /\
    engine c w' = Failed e.
Proof.
  revert w. induction cs as [| c0 cs IH]; intros w.
  - cbn. split; [discriminate | ].
    intros (pre & c & post & w' & H & _). destruct pre; discriminate.
  - cbn. destruct (engine c0 w) as [w1 | e0] eqn:E.
    + rewrite IH. split.
      * intros (pre & c & post & w' & -> & Hpre & Hc).
        exists (c0 :: pre), c, post, w'. cbn. rewrite E. auto.
      * intros (pre & c & post & w' & Hcs & Hpre & Hc).
        destruct pre as [| c1 pre]; cbn in Hcs, Hpre.
        -- injection Hcs as -> ->. injection Hpre as ->. congruence.
        -- injection Hcs as -> ->. rewrite E in Hpre.
           exists pre, c, post, w'. auto.
    + split.
      * intros [= ->]. exists [], c0, cs, w. auto.
      * intros (pre & c & post & w' & Hcs & Hpre & Hc).
        destruct pre as [| c1 pre]; cbn in Hcs, Hpre.
        -- injection Hcs as -> ->. injection Hpre as ->. congruence.
        -- injection Hcs as -> ->. rewrite E in Hpre. discriminate.
Qed.

End EngineFacts.

(** C7: no member function carries error handling.  In the header every one
    of the fifteen member-function declarations is closed by [;], so the
    class holds no statement at all, hence neither exception handling nor a
    failure branch, and none returns an error: all return [void] except
    [onKeyEvent] and [onMouseEvent], which return the [bool] the framework
    asks of an event callback.  In the model of the bodies, an operation
    fails exactly when one of its engine calls fails, with that call's
    failure: it adds no failure of its own and recovers from none. *)
Theorem C7_no_error_handling :
  map (fun m => option_map has_body (method_of m)) (methods class_StereoRendering)
    = repeat (Some false) 15 /\
  map (fun m => option_map ret (method_of m)) (methods class_StereoRendering)
    = repeat (Some TVoid) 3 ++ repeat (Some TBool) 2 ++ repeat (Some TVoid) 10 /\
  map m_name
      (filter (fun m => match option_map ret (method_of m) with
                        | Some TVoid => false
                        | _ => true
                        end) (methods class_StereoRendering))
    = ["onKeyEvent"; "onMouseEvent"] /\
  (forall (World Call Failure : Type)
          (engine : Call -> World -> outcome World Failure)
          (cs : list Call) (w : World) (e : Failure),
      run_calls engine cs w = Failed e <->
      exists pre c post w',
        cs = pre ++ c :: post /\
        run_calls engine pre w = Done w' /\
        engine c w' = Failed e).
Proof.
  split; [by_evaluation | ].
  split; [by_evaluation | ].
  split; [by_evaluation | ].
  intros World Call Failure engine cs w e. apply run_calls_failed_iff.
Qed.

(* ===================================================================== *)
(** ** Further properties of the declaration *)
(* ===================================================================== *)

Lemma named_In (c : class_decl) (n : string) (m : member) :
  In m (named n c) <-> In m (c_members c) /\ m_name m = n.
Proof.
  unfold named. rewrite filter_In, String.eqb_eq. tauto.
Qed.

Lemma ctype_eqb_refl (t : ctype) : ctype_eqb t t = true.
Proof.
  induction t; cbn; try reflexivity; try assumption.
  - apply String.eqb_refl.
  - now rewrite !String.eqb_refl.
Qed.

Lemma ctypes_eqb_refl (l : list ctype) : ctypes_eqb l l = true.
Proof.
  induction l as [| t l IH]; cbn; [reflexivity | ].
  now rewrite ctype_eqb_refl, IH.
Qed.

Lemma signature_eqb_refl (g : string * list ctype) : signature_eqb g g = true.
Proof.
  unfold signature_eqb. now rewrite String.eqb_refl, ctypes_eqb_refl.
Qed.

Lemma distinct_signatures_NoDup (l : list (string * list ctype)) :
  distinct_signatures l = true -> NoDup l.
Proof.
  induction l as [| g r IH]; intros H; constructor.
  - cbn in H. apply andb_prop in H. destruct H as [H _].
    apply negb_true_iff in H. intros Hin.
    assert (E : existsb (signature_eqb g) r = true).
    { apply existsb_exists. exists g. split; [exact Hin | apply signature_eqb_refl]. }
    congruence.
  - apply IH. cbn in H. apply andb_prop in H. tauto.
Qed.

Lemma members_checked (c : class_decl) (check : member -> bool) (m : member) :
  forallb check (c_members c) = true -> In m (c_members c) -> check m = true.
Proof. intros H Hin. rewrite forallb_forall in H. exact (H m Hin). Qed.

Lemma is_handle_or_list_spec (t : ctype) :
  is_handle_or_list t = true ->
  (exists c, t = SharedPtr c \/ t = UniquePtr c) \/ t = DropdownList_t.
Proof.
  unfold is_handle_or_list. destruct t as [ | | | n | c n | t | t]; cbn;
    try discriminate.
  - destruct (String.eqb n "RenderMode"); discriminate.
  - destruct (String.eqb n "SharedPtr") eqn:E1; cbn.
    + intros _. left. exists c. left. apply String.eqb_eq in E1. now subst.
    + destruct (String.eqb n "UniquePtr") eqn:E2; cbn.
      * intros _. left. exists c. right. apply String.eqb_eq in E2. now subst.
      * destruct (String.eqb c "Gui") eqn:E3; cbn; [ | discriminate].
        destruct (String.eqb n "DropdownList") eqn:E4; cbn; [ | discriminate].
        intros _. right. apply String.eqb_eq in E3, E4. now subst.
Qed.

(** X1: a non-static data member with a default member initialiser has one
    that fits its type ([nullptr] for a smart pointer, [true] / [false] for
    a [bool], an enumerator of [RenderMode] for [mRenderMode]); a member
    without one is a smart pointer ([C::SharedPtr] or [C::UniquePtr]) or the
    dropdown list [Gui::DropdownList], and is never a [bool] or the
    enumeration: every [bool] and enumeration member has an initialiser. *)
Theorem X1_data_members_initialised
  (m : member) (t : ctype) (i : option init_expr) :
  In m (c_members class_StereoRendering) ->
  m_kind m = KField t i ->
  match i with
  | Some e => initialiser_fits class_StereoRendering t e = true
  | None => ((exists c, t = SharedPtr c \/ t = UniquePtr c) \/ t = DropdownList_t)
            /\ t <> TBool /\ t <> RenderMode_t
  end.
Proof.
  intros Hin Hk.
  assert (H : field_initialised class_StereoRendering m = true).
  { apply (members_checked class_StereoRendering
             (field_initialised class_StereoRendering));
      [by_evaluation | exact Hin]. }
  unfold field_initialised in H. rewrite Hk in H.
  destruct i as [e | ]; [exact H | ].
  split; [apply is_handle_or_list_spec; exact H | ].
  split; intros ->; discriminate.
Qed.

(** X1 at the dropdown list of line 71, which has no initialiser. *)
Lemma X1_data_members_initialised_witness :
  In (MkMember 71 Private "mSubmitModeList" (KField DropdownList_t None))
     (c_members class_StereoRendering) /\
  ((exists c, DropdownList_t = SharedPtr c \/ DropdownList_t = UniquePtr c)
   \/ DropdownList_t = DropdownList_t) /\
  DropdownList_t <> TBool /\ DropdownList_t <> RenderMode_t.
Proof.
  assert (Hin : In (MkMember 71 Private "mSubmitModeList" (KField DropdownList_t None))
                   (c_members class_StereoRendering)).
  { simpl. repeat (first [left; reflexivity | right]). }
  split; [exact Hin | ].
  exact (X1_data_members_initialised
           (MkMember 71 Private "mSubmitModeList" (KField DropdownList_t None))
           DropdownList_t None Hin eq_refl).
Defined.

(** X2: a member function of the class is marked [override] if and only if
    it is public: the class overrides virtual functions of [Renderer] only
    through its public callbacks, and none of its private helpers overrides
    anything. *)
Theorem X2_override_iff_public (m : member) (d : method_decl) :
  In m (c_members class_StereoRendering) ->
  m_kind m = KMethod d ->
  (is_override d = true <-> m_access m = Public).
Proof.
  intros Hin Hk.
  assert (H : override_matches_access m = true).
  { apply (members_checked class_StereoRendering override_matches_access);
      [by_evaluation | exact Hin]. }
  unfold override_matches_access in H. rewrite Hk in H.
  apply eqb_prop in H. rewrite H. apply is_public_spec.
Qed.

(** X2 at the private helper [initVR] of line 74. *)
Lemma X2_override_iff_public_witness :
  In (MkMember 74 Private "initVR"
        (KMethod (MkMethod TVoid [(TPtr (TName "Fbo"), "pTargetFbo")] false false)))
     (c_members class_StereoRendering) /\
  (false = true <-> Private = Public).
Proof.
  assert (Hin : In (MkMember 74 Private "initVR"
        (KMethod (MkMethod TVoid [(TPtr (TName "Fbo"), "pTargetFbo")] false false)))
     (c_members class_StereoRendering)).
  { simpl. repeat (first [left; reflexivity | right]). }
  split; [exact Hin | ].
  exact (X2_override_iff_public _ _ Hin eq_refl).
Defined.

Lemma declared_twice_is_loadScene (n : string) :
  2 <= List.length (named n class_StereoRendering) -> n = "loadScene".
Proof.
  intros H.
  destruct (named n class_StereoRendering) as [| m r] eqn:E; [cbn in H; lia | ].
  assert (Hm : In m (named n class_StereoRendering)) by (rewrite E; now left).
  apply named_In in Hm. destruct Hm as [Hin Hn].
  assert (Hc : implb (Nat.leb 2 (List.length (named (m_name m) class_StereoRendering)))
                     (String.eqb (m_name m) "loadScene") = true).
  { apply (members_checked class_StereoRendering
             (fun m => implb (Nat.leb 2 (List.length (named (m_name m) class_StereoRendering)))
                             (String.eqb (m_name m) "loadScene")));
      [by_evaluation | exact Hin]. }
  rewrite Hn, E in Hc.
  apply Nat.leb_le in H. rewrite H in Hc. cbn in Hc.
  now apply String.eqb_eq in Hc.
Qed.

(** X3: no two member functions of the class have the same name and
    parameter types.  The only name the class declares more than once is
    [loadScene], whose two declarations are member functions that differ in
    their parameters: one takes none, the other a [const std::string&]. *)
Theorem X3_overloads_distinct :
  NoDup (signatures class_StereoRendering) /\
  List.length (signatures class_StereoRendering) = 15 /\
  (forall n, 2 <= List.length (named n class_StereoRendering) <-> n = "loadScene") /\
  map signature (named "loadScene" class_StereoRendering)
    = [ Some ("loadScene", []); Some ("loadScene", [TConstRef std_string]) ].
Proof.
  split; [apply distinct_signatures_NoDup; by_evaluation | ].
  split; [by_evaluation | ].
  split; [ | by_evaluation].
  intros n. split; [apply declared_twice_is_loadScene | ].
  intros ->. apply Nat.leb_le. by_evaluation.
Qed.

